(** * The book controller of the local-library catalogue

    A shallow embedding of [controllers/bookController.js] and of the Author
    model that accompanies it.  Documents are records, the Book collection is
    a finite map keyed by identifier, request handlers are state-passing
    functions over the store that log every call they make on the store, on
    [res] and on [next]. *)

From Stdlib Require Import Ascii String.
From stdpp Require Import gmap strings list fin_maps sorting.

(** Identifiers are the ObjectId texts that travel in paths and forms. *)
Abbreviation Id := string (only parsing).

(** ** Dates and their display

    A stored date, as the calendar date Luxon shows for it. *)
Record Date := { year : nat; month : nat; day : nat }.

Definition digit (n : nat) : string :=
  String (Ascii.ascii_of_nat (48 + n `mod` 10)) "".

Fixpoint digits (fuel n : nat) : string :=
  match fuel with
  | 0 => digit n
  | S fuel' => if decide (n < 10) then digit n else digits fuel' (n `div` 10) +:+ digit n
  end.

Definition show_nat (n : nat) : string := digits n n.

Definition month_name (m : nat) : string :=
  match m with
  | 1 => "Jan" | 2 => "Feb" | 3 => "Mar" | 4 => "Apr" | 5 => "May" | 6 => "Jun"
  | 7 => "Jul" | 8 => "Aug" | 9 => "Sept" | 10 => "Oct" | 11 => "Nov" | 12 => "Dec"
  | _ => ""
  end.

(** A sample of Luxon's [setLocale("en-gb").toLocaleString(DATE_MED)]:
    day, abbreviated month, year.  The development is parametric in the
    formatter; this one instantiates it on concrete runs. *)
Definition date_med (d : Date) : string :=
  show_nat (day d) +:+ " " +:+ month_name (month d) +:+ " " +:+ show_nat (year d).

(** ** The Author model (models/author.js) *)
Module Author.

Record doc := {
  _id : Id;
  first_name : string;
  family_name : string;
  date_of_birth : option Date;
  date_of_death : option Date
  }.

Section Virtuals.
(** [DateTime.fromJSDate(d).setLocale("en-gb").toLocaleString(DateTime.DATE_MED)] *)
Variable toLocaleString : Date → string.

(** A JS string is truthy when it is not empty. *)
Definition truthy (s : string) : bool := negb (String.eqb s "").

(** [AuthorSchema.virtual("name")] *)
Definition name (this : doc) : string :=
  let fullname := "" in
  let fullname :=
    if truthy (first_name this) && truthy (family_name this)
    then family_name this +:+ ", " +:+ first_name this
    else fullname in
  fullname.

(** [AuthorSchema.virtual("lifespan")]: two guarded appends. *)
Definition lifespan (this : doc) : string :=
  let lifespan := "" in
  let lifespan :=
    match date_of_birth this with
    | Some d => (lifespan +:+ "Born: ") +:+ toLocaleString d
    | None => lifespan
    end in
  let lifespan :=
    match date_of_death this with
    | Some d => (lifespan +:+ " - Died: ") +:+ toLocaleString d
    | None => lifespan
    end in
  lifespan.

(** [AuthorSchema.virtual("url")] *)
Definition url (this : doc) : string := "/catalog/author/" +:+ _id this.

(** The lifespan as the specification words it: the two clauses
    ["Born: <date>"] and ["Died: <date>"], joined by [" - "] when both
    are there, a clause left out when its date is absent. *)
Definition lifespan_as_specified (this : doc) : string :=
  match date_of_birth this, date_of_death this with
  | Some b, Some d => "Born: " +:+ toLocaleString b +:+ " - Died: " +:+ toLocaleString d
  | Some b, None => "Born: " +:+ toLocaleString b
  | None, Some d => "Died: " +:+ toLocaleString d
  | None, None => ""
  end.
End Virtuals.

End Author.

(** ** The other models

    The controller requires models/genre.js, models/bookinstance.js and
    models/book.js, which are not among the sources. *)
Module Genre.
(** Modelled from the spec: the Genre schema, a required name. *)
Record doc := { _id : Id; name : string }.
End Genre.

Module BookInstance.
(** Modelled from the spec: the BookInstance schema, a reference to one Book,
    an imprint, a status ("Available", "Maintenance", "Loaned", "Reserved")
    and an optional due date. *)
Record doc := {
  _id : Id;
  book : Id;
  imprint : string;
  status : string;
  due_back : option Date
}.
End BookInstance.

Module Book.
(** Modelled from the spec: the Book schema, a title, a reference to one
    Author, a summary, an isbn and references to zero or more Genres.  The
    references are kept as the identifiers submitted. *)
Record doc := {
  _id : Id;
  title : string;
  author : Id;
  summary : string;
  isbn : string;
  genre : list Id
}.

(** Modelled from the spec: the Book model's [url] virtual, the canonical
    detail-page path computed from the identifier (as [Author.url] does
    for authors). *)
Definition url (this : doc) : string := "/catalog/book/" +:+ _id this.
End Book.

#[global] Instance date_eq_dec : EqDecision Date.
Proof. solve_decision. Defined.
#[global] Instance author_eq_dec : EqDecision Author.doc.
Proof. solve_decision. Defined.
#[global] Instance genre_eq_dec : EqDecision Genre.doc.
Proof. solve_decision. Defined.
#[global] Instance bookinstance_eq_dec : EqDecision BookInstance.doc.
Proof. solve_decision. Defined.
#[global] Instance book_eq_dec : EqDecision Book.doc.
Proof. solve_decision. Defined.

(** ** The store: one collection per model *)
Record Store := {
  books : gmap Id Book.doc;
  bookinstances : list BookInstance.doc;
  authors : list Author.doc;
  genres : list Genre.doc
}.

Definition set_books (f : gmap Id Book.doc → gmap Id Book.doc) (s : Store) : Store :=
  {| books := f (books s); bookinstances := bookinstances s;
     authors := authors s; genres := genres s |}.

(** [.sort({ key: 1 })]: ascending, stable insertion by a text key. *)
Section Sort.
Context {A : Type} (key : A → string).

Fixpoint insert_sorted (x : A) (l : list A) : list A :=
    match l with
    | [] => [x]
    | y :: l' => if String.leb (key x) (key y) then x :: l else y :: insert_sorted x l'
    end.

Definition sort_by (l : list A) : list A := foldr insert_sorted [] l.
End Sort.

(** A Book with its references joined in: [.populate("author genre")]. *)
Record PopulatedBook := {
  pb_book : Book.doc;
  pb_author : option Author.doc;
  pb_genre : list Genre.doc
}.

Definition populate (s : Store) (b : Book.doc) : PopulatedBook :=
  {| pb_book := b;
     pb_author := List.find (λ a, bool_decide (Author._id a = Book.author b)) (authors s);
     pb_genre := omap (λ g, List.find (λ d, bool_decide (Genre._id d = g)) (genres s)) (Book.genre b) |}.

Definition instances_of (id : Id) (s : Store) : list BookInstance.doc :=
  filter (λ i, BookInstance.book i = id) (bookinstances s).

Definition available (s : Store) : list BookInstance.doc :=
  filter (λ i, BookInstance.status i = "Available") (bookinstances s).

(** ** The validation layer (express-validator)

    The chains of the controller call three functions of validator.js, which
    is not among the sources.  The development is parametric in them: every
    general statement holds whatever text they strip, replace or count. *)
Record Validator := {
  trim : string → string;
  escape : string → string;
  isLength_min : nat → string → bool
}.

(** One entry of [errors.array()]. *)
Record ValidationError := { path : string; msg : string; value : string }.

#[global] Instance validation_error_eq_dec : EqDecision ValidationError.
Proof. solve_decision. Defined.

(** What a form field holds in [req.body]: nothing ([undefined]), one value,
    or an array of values (the field was submitted several times). *)
Inductive FormField :=
| Absent
| Scalar (v : string)
| Multi (vs : list string).

(** [req.body] of the book form.  [T] is what a text field holds and [G]
    what the genre field holds at the current stage of the middleware chain. *)
Record Body (T G : Type) := {
  title : T;
  author : T;
  summary : T;
  isbn : T;
  genre : G
}.
Arguments title {T G} _.
Arguments author {T G} _.
Arguments summary {T G} _.
Arguments isbn {T G} _.
Arguments genre {T G} _.

Abbreviation RawBody := (Body (option string) FormField).
Abbreviation ArrayBody := (Body (option string) (list string)).
Abbreviation CleanBody := (Body string (list string)).

(** The first middleware of both POST chains:
    [if (!Array.isArray(g)) g = typeof g === "undefined" ? [] : new Array(g)].
    A single form value is a text, and [new Array] of a text is the array
    holding it. *)
Definition genre_to_array (g : FormField) : list string :=
  match g with
  | Multi vs => vs
  | Absent => []
  | Scalar v => [v]
  end.

Definition convert_genre (b : RawBody) : ArrayBody :=
  {| title := title b; author := author b; summary := summary b; isbn := isbn b;
     genre := genre_to_array (genre b) |}.

(** [body(path, msg).trim().isLength({ min: 1 }).escape()] on one field: the
    value read (an absent field reads as the empty text) is trimmed, checked,
    then escaped; a failed check records one error carrying the trimmed value. *)
Definition required (lib : Validator) (path msg : string) (raw : option string) :
    string * list ValidationError :=
  let v := trim lib (default "" raw) in
  (escape lib v,
   if isLength_min lib 1 v then [] else [ {| path := path; msg := msg; value := v |} ]).

(** The five chains, run in the order of the middleware array;
    [body("genre.*").escape()] escapes every element and checks nothing.
    The second component is what [validationResult(req)] collects. *)
Definition validate (lib : Validator) (b : ArrayBody) : CleanBody * list ValidationError :=
  let '(t, e1) := required lib "title" "Title must not be empty." (title b) in
  let '(a, e2) := required lib "author" "Author must not be empty." (author b) in
  let '(s, e3) := required lib "summary" "Summary must not be empty." (summary b) in
  let '(i, e4) := required lib "isbn" "ISBN must not be empty." (isbn b) in
  ({| title := t; author := a; summary := s; isbn := i; genre := escape lib <$> genre b |},
   e1 ++ e2 ++ e3 ++ e4).

(** ** What a handler does: calls on the store, on [res] and on [next] *)
Record Error := { message : string; status : option nat }.

Inductive StoreOp :=
| Book_countDocuments
| BookInstance_countDocuments
| BookInstance_countDocuments_Available
| Author_countDocuments
| Genre_countDocuments
| Book_findById (id : Id)
| BookInstance_find (book : Id)
| Author_find
| Genre_find
| Book_save (b : Book.doc)
| Book_findByIdAndDelete (id : Id)
| Book_findByIdAndUpdate (id : Id) (b : Book.doc).

(** A genre offered in the form, with the transient [checked] mark. *)
Record GenreChoice := { choice : Genre.doc; checked : bool }.

(** The [book] a form is prefilled with: the unsaved document of a POST, or
    the stored one with its references joined. *)
Inductive FormBook :=
| Unsaved (b : Book.doc)
| Joined (b : PopulatedBook).

(** The data mapping of each template. *)
Inductive Locals :=
| index_locals (title : string)
    (book_count book_instance_count book_instance_available_count author_count genre_count : nat)
| book_detail_locals (title : string) (book : PopulatedBook) (book_instances : list BookInstance.doc)
| book_form_locals (title : string) (authors : list Author.doc) (genres : list GenreChoice)
    (book : option FormBook) (errors : option (list ValidationError))
| book_delete_locals (title : string) (book : option Book.doc) (book_instances : list BookInstance.doc).

Inductive Event :=
| Exec (op : StoreOp)
| Render (view : string) (locals : Locals)
| Redirect (path : string)
| Next (err : Error).

(** A settled promise: rejected with an error, or fulfilled with a value. *)
Definition Promise (A : Type) : Type := Error + A.

(** The run of an asynchronous function from a store: the store it leaves,
    the calls it made in order, and what it threw or returned. *)
Record Outcome (A : Type) := {
  after : Store;
  log : list Event;
  result : Error + A
}.
Arguments after {A} _.
Arguments log {A} _.
Arguments result {A} _.

Definition Async (A : Type) : Type := Store → Outcome A.

#[global] Instance async_ret : MRet Async := λ A a s,
  {| after := s; log := []; result := inr a |}.

#[global] Instance async_bind : MBind Async := λ A B k m s,
  let r := m s in
  match result r with
  | inl e => {| after := after r; log := log r; result := inl e |}
  | inr a =>
      let r' := k a (after r) in
      {| after := after r'; log := log r ++ log r'; result := result r' |}
  end.

Definition throw {A} (e : Error) : Async A := λ s,
  {| after := s; log := []; result := inl e |}.

Definition emit (ev : Event) : Async unit := λ s,
  {| after := s; log := [ev]; result := inr tt |}.

(** [await p] *)
Definition await {A} (p : Promise A) : Async A :=
  match p with
  | inl e => throw e
  | inr a => mret a
  end.

(** [Promise.all]: fulfilled with all the values when every promise is,
    rejected otherwise.  The order in which the promises settle is not
    modelled: the leftmost rejection stands for the one that settles first,
    and what is stated of a group that fails is only that the error handed
    on is one of its rejections. *)
Definition all2 {A B} (p : Promise A) (q : Promise B) : Promise (A * B) :=
  match p, q with
  | inl e, _ => inl e
  | inr _, inl e => inl e
  | inr a, inr b => inr (a, b)
  end.

Definition all3 {A B C} (p : Promise A) (q : Promise B) (r : Promise C) : Promise (A * B * C) :=
  all2 (all2 p q) r.

Definition all5 {A B C D E} (p : Promise A) (q : Promise B) (r : Promise C)
    (t : Promise D) (u : Promise E) : Promise (A * B * C * D * E) :=
  all2 (all2 (all3 p q r) t) u.

Definition res_render (view : string) (locals : Locals) : Async unit := emit (Render view locals).
Definition res_redirect (path : string) : Async unit := emit (Redirect path).
Definition next (err : Error) : Async unit := emit (Next err).

(** [asyncHandler(fn)]: whatever [fn] throws, or whatever promise it awaits
    rejects with, is handed to [next]. *)
Definition asyncHandler (fn : Async unit) (s : Store) : Store * list Event :=
  let r := fn s in
  (after r,
   match result r with
   | inl e => log r ++ [Next e]
   | inr _ => log r
   end).

(** [for (const genre of allGenres) if (selected(genre._id)) genre.checked = "true"] *)
Definition mark_checked (selected : Id → bool) (allGenres : list Genre.doc) : list GenreChoice :=
  (λ g, {| choice := g; checked := selected (Genre._id g) |}) <$> allGenres.

(** [new Error("Book not found")] with [err.status = 404]. *)
Definition not_found : Error := {| message := "Book not found"; status := Some 404 |}.

(** The [TypeError] of reading a property of [null]. *)
Definition null_property (prop : string) : Error :=
  {| message := "Cannot read properties of null (reading '" +:+ prop +:+ "')"; status := None |}.

(** ** The controller (controllers/bookController.js) *)
Section Controller.

(** The store calls that fail, with their errors (a lost connection and the
    like); [None] where the store answers. *)
Variable faults : StoreOp → option Error.

(** Mongoose's [includes] on the genre path of a book whose references are
    joined in, as the update form's GET uses it. *)
Variable includes_joined : list Genre.doc → Id → bool.

(** validator.js, as the chains of the two POST handlers call it. *)
Variable lib : Validator.

(** A read, issued by [.exec()]: logged, and answered from the store as it is. *)
Definition query {A} (op : StoreOp) (read : Store → A) : Async (Promise A) := λ s,
  {| after := s; log := [Exec op];
     result := inr (match faults op with
                    | Some e => inl e
                    | None => inr (read s)
                    end) |}.

(** A write: logged; it changes the store only when it does not fail. *)
Definition command {A} (op : StoreOp) (write : Store → Store * A) : Async (Promise A) := λ s,
  match faults op with
  | Some e => {| after := s; log := [Exec op]; result := inr (inl e) |}
  | None => {| after := (write s).1; log := [Exec op]; result := inr (inr (write s).2) |}
  end.

Definition Book_findById_exec (id : Id) : Async (Promise (option Book.doc)) :=
  query (Book_findById id) (λ s, books s !! id).

Definition Book_findById_populate_exec (id : Id) : Async (Promise (option PopulatedBook)) :=
  query (Book_findById id) (λ s, populate s <$> books s !! id).

Definition BookInstance_find_exec (id : Id) : Async (Promise (list BookInstance.doc)) :=
  query (BookInstance_find id) (instances_of id).

Definition Author_find_sort_exec : Async (Promise (list Author.doc)) :=
  query Author_find (λ s, sort_by Author.family_name (authors s)).

Definition Genre_find_sort_exec : Async (Promise (list Genre.doc)) :=
  query Genre_find (λ s, sort_by Genre.name (genres s)).

(** [book.save()] of a new document: inserted under its identifier. *)
Definition save (b : Book.doc) : Async (Promise unit) :=
  command (Book_save b) (λ s, (set_books (insert (Book._id b) b) s, tt)).

(** [Book.findByIdAndDelete(id).exec()]: resolves to the removed document,
    or to [null] when there is none. *)
Definition Book_findByIdAndDelete_exec (id : Id) : Async (Promise (option Book.doc)) :=
  command (Book_findByIdAndDelete id) (λ s, (set_books (delete id) s, books s !! id)).

(** [Book.findByIdAndUpdate(id, book, {})]: the document stored under [id]
    takes the fields of [book]; resolves to the document as it was before
    the update (no [new] option), or to [null] when nothing is stored under
    [id] (no [upsert] option). *)
Definition Book_findByIdAndUpdate_call (id : Id) (b : Book.doc) : Async (Promise (option Book.doc)) :=
  command (Book_findByIdAndUpdate id b)
    (λ s, match books s !! id with
          | Some old => (set_books (insert id b) s, Some old)
          | None => (s, None)
          end).

(** [exports.index] *)
Definition index : Store → Store * list Event :=
  asyncHandler (
    p1 ← query Book_countDocuments (λ s, size (books s));
    p2 ← query BookInstance_countDocuments (λ s, length (bookinstances s));
    p3 ← query BookInstance_countDocuments_Available (λ s, length (available s));
    p4 ← query Author_countDocuments (λ s, length (authors s));
    p5 ← query Genre_countDocuments (λ s, length (genres s));
    '(numBooks, numInstances, numAvailableInstances, numAuthors, numGenres) ←
      await (all5 p1 p2 p3 p4 p5);
    res_render "index"
      (index_locals "Local Library Home"
         numBooks numInstances numAvailableInstances numAuthors numGenres)).

(** [exports.book_detail], with [req.params.id] *)
Definition book_detail (id : Id) : Store → Store * list Event :=
  asyncHandler (
    p ← Book_findById_populate_exec id;
    q ← BookInstance_find_exec id;
    '(book, bookInstances) ← await (all2 p q);
    match book with
    | None => next not_found
    | Some book =>
        res_render "book_detail"
          (book_detail_locals (Book.title (pb_book book)) book bookInstances)
    end).

(** [new Book({ title, author, summary, isbn, genre })] from the sanitized body. *)
Definition new_Book (_id : Id) (body : CleanBody) : Book.doc :=
  {| Book._id := _id;
     Book.title := title body;
     Book.author := author body;
     Book.summary := summary body;
     Book.isbn := isbn body;
     Book.genre := genre body |}.

(** The form again, after a failed validation; common to both POST handlers. *)
Definition render_form_again (form_title : string) (book : Book.doc)
    (errors : list ValidationError) : Async unit :=
  p ← Author_find_sort_exec;
  q ← Genre_find_sort_exec;
  '(allAuthors, allGenres) ← await (all2 p q);
  res_render "book_form"
    (book_form_locals form_title allAuthors
       (mark_checked (λ g, bool_decide (g ∈ Book.genre book)) allGenres)
       (Some (Unsaved book)) (Some errors)).

(** [exports.book_create_post], with [req.body]; [fresh] is the identifier
    the new document is given when it is constructed. *)
Definition book_create_post (fresh : Id) (body : RawBody) : Store → Store * list Event :=
  let '(body, errors) := validate lib (convert_genre body) in
  asyncHandler (
    let book := new_Book fresh body in
    if negb (bool_decide (errors = [])) then
      render_form_again "Create Book" book errors
    else
      p ← save book;
      await p;;
      res_redirect (Book.url book)).

(** [exports.book_delete_get], with [req.params.id].  The redirect is not
    followed by a [return]. *)
Definition book_delete_get (id : Id) : Store → Store * list Event :=
  asyncHandler (
    p ← Book_findById_exec id;
    q ← BookInstance_find_exec id;
    '(book, bookInstances) ← await (all2 p q);
    (if bool_decide (book = None) then res_redirect "/catalog/books" else mret tt);;
    res_render "book_delete" (book_delete_locals "Delete Book" book bookInstances)).

(** [exports.book_delete_post], with [req.body.bookid] *)
Definition book_delete_post (bookid : Id) : Store → Store * list Event :=
  asyncHandler (
    p ← Book_findById_exec bookid;
    q ← BookInstance_find_exec bookid;
    '(book, bookInstances) ← await (all2 p q);
    if bool_decide (0 < length bookInstances) then
      res_render "book_delete" (book_delete_locals "Delete Book" book bookInstances)
    else
      d ← Book_findByIdAndDelete_exec bookid;
      await d;;
      res_redirect "/catalog/books").

(** [exports.book_update_get], with [req.params.id] *)
Definition book_update_get (id : Id) : Store → Store * list Event :=
  asyncHandler (
    p ← Book_findById_populate_exec id;
    q ← Author_find_sort_exec;
    r ← Genre_find_sort_exec;
    '(book, allAuthors, allGenres) ← await (all3 p q r);
    match book with
    | None => next not_found
    | Some book =>
        res_render "book_form"
          (book_form_locals "Update Book" allAuthors
             (mark_checked (includes_joined (pb_genre book)) allGenres)
             (Some (Joined book)) None)
    end).

(** [exports.book_update_post], with [req.params.id] and [req.body].  The
    genre is an array once the first middleware has run, so the record takes
    it as it is (the [typeof ... === "undefined"] alternative of the
    constructor call is never taken); [_id] is the identifier of the path. *)
Definition book_update_post (id : Id) (body : RawBody) : Store → Store * list Event :=
  let '(body, errors) := validate lib (convert_genre body) in
  asyncHandler (
    let book := new_Book id body in
    if negb (bool_decide (errors = [])) then
      render_form_again "Update Book" book errors
    else
      p ← Book_findByIdAndUpdate_call id book;
      updatedBook ← await p;
      match updatedBook with
      | None => throw (null_property "url")
      | Some updatedBook => res_redirect (Book.url updatedBook)
      end).

End Controller.

(** [exports.book_create_get]: the empty form, with the choice lists; no
    genre carries a [checked] mark. *)
Definition book_create_get (faults : StoreOp → option Error) : Store → Store * list Event :=
  asyncHandler (
    p ← Author_find_sort_exec faults;
    q ← Genre_find_sort_exec faults;
    '(allAuthors, allGenres) ← await (all2 p q);
    res_render "book_form"
      (book_form_locals "Create Book" allAuthors (mark_checked (λ _, false) allGenres)
         None None)).

(** A book as the list query returns it: the projection ["title author"]
    keeps the identifier and these two fields, and the author is joined in
    ([null] when the reference resolves to no author). *)
Record BookListItem := {
  item_id : Id;
  item_title : string;
  item_author : option Author.doc
}.

Definition list_item (s : Store) (b : Book.doc) : BookListItem :=
  {| item_id := Book._id b;
     item_title := Book.title b;
     item_author := pb_author (populate s b) |}.

(** [Book.find({}, "title author").sort({ title: 1 }).populate("author")] *)
Definition Book_find_title_author (s : Store) : list BookListItem :=
  list_item s <$> sort_by Book.title (map_to_list (books s)).*2.

(** The calls [book_list] makes: its one query, its one view, and [next]. *)
Inductive ListCall :=
| ExecBookFind
| RenderBookList (view : string) (title : string) (book_list : list BookListItem)
| NextBookList (err : Error).

(** [exports.book_list]; [fault] is the error the query fails with, if it
    does (the handler is wrapped in [asyncHandler], which hands it to [next]). *)
Definition book_list (fault : option Error) (s : Store) : Store * list ListCall :=
  match fault with
  | Some e => (s, [ExecBookFind; NextBookList e])
  | None =>
      (s, [ExecBookFind; RenderBookList "book_list" "Book List" (Book_find_title_author s)])
  end.

(** ** Observations on a run *)

(** The store that answers every call. *)
Definition reliable : StoreOp → option Error := λ _, None.

Definition is_exec (ev : Event) : bool :=
  match ev with
  | Exec _ => true
  | _ => false
  end.

(** The calls made on [res] and [next], in order. *)
Definition responses (evs : list Event) : list Event := filter (λ ev, is_exec ev = false) evs.

(** The calls made on the store, in order. *)
Definition executed (evs : list Event) : list StoreOp :=
  omap (λ ev, match ev with Exec op => Some op | _ => None end) evs.

(** The required fields of the book form, as submitted. *)
Definition required_fields (b : RawBody) : list (string * option string) :=
  [("title", title b); ("author", author b); ("summary", summary b); ("isbn", isbn b)].

(** The submission with its genre field already an array. *)
Definition genre_as_array (b : RawBody) : RawBody :=
  {| title := title b; author := author b; summary := summary b; isbn := isbn b;
     genre := Multi (genre_to_array (genre b)) |}.

(** The five counts of the home page. *)
Definition count_queries : list StoreOp :=
  [Book_countDocuments; BookInstance_countDocuments; BookInstance_countDocuments_Available;
   Author_countDocuments; Genre_countDocuments].

(** The error of the leftmost call that fails, if any does. *)
Fixpoint first_rejection (faults : StoreOp → option Error) (ops : list StoreOp) : option Error :=
  match ops with
  | [] => None
  | op :: ops' =>
      match faults op with
      | Some e => Some e
      | None => first_rejection faults ops'
      end
  end.

(** A field is empty after trimming when nothing is left of what was
    submitted for it (nothing, for an absent field). *)
Definition empty_after_trim (lib : Validator) (raw : option string) : Prop :=
  trim lib (default "" raw) = "".

(** A field fails its chain when its trimmed text fails [isLength({ min: 1 })]. *)
Definition fails_check (lib : Validator) (raw : option string) : bool :=
  negb (isLength_min lib 1 (trim lib (default "" raw))).

(** The names of the required fields that fail their chain: the missing or
    invalid fields of a submission. *)
Definition missing (lib : Validator) (b : RawBody) : list string :=
  (filter (λ f, fails_check lib f.2 = true) (required_fields b)).*1.

(** The message each required field's chain is given. *)
Definition message_for (f : string) : string :=
  if String.eqb f "title" then "Title must not be empty."
  else if String.eqb f "author" then "Author must not be empty."
  else if String.eqb f "summary" then "Summary must not be empty."
  else "ISBN must not be empty.".

(** The record the specification expects a valid submission to persist:
    every submitted value trimmed and escaped. *)
Definition trimmed_and_escaped (lib : Validator) (_id : Id) (b : RawBody) : Book.doc :=
  {| Book._id := _id;
     Book.title := escape lib (trim lib (default "" (title b)));
     Book.author := escape lib (trim lib (default "" (author b)));
     Book.summary := escape lib (trim lib (default "" (summary b)));
     Book.isbn := escape lib (trim lib (default "" (isbn b)));
     Book.genre := (λ v, escape lib (trim lib v)) <$> genre_to_array (genre b) |}.

(** The record the chains produce: the required fields trimmed and escaped,
    the genre elements escaped. *)
Definition sanitized (lib : Validator) (_id : Id) (b : RawBody) : Book.doc :=
  {| Book._id := _id;
     Book.title := escape lib (trim lib (default "" (title b)));
     Book.author := escape lib (trim lib (default "" (author b)));
     Book.summary := escape lib (trim lib (default "" (summary b)));
     Book.isbn := escape lib (trim lib (default "" (isbn b)));
     Book.genre := escape lib <$> genre_to_array (genre b) |}.

(** A store in which every book is filed under its own identifier. *)
Definition well_keyed (s : Store) : Prop :=
  ∀ k b, books s !! k = Some b → Book._id b = k.

(** The store calls that write. *)
Definition is_write (op : StoreOp) : bool :=
  match op with
  | Book_save _ | Book_findByIdAndDelete _ | Book_findByIdAndUpdate _ _ => true
  | _ => false
  end.

(** Ascending order of a text key, as [.sort({ key: 1 })] gives it. *)
Definition ascending {A : Type} (key : A → string) (l : list A) : Prop :=
  Sorted (λ x y, String.leb (key x) (key y) = true) l.

(** A run that left the store as it was and issued no write. *)
Definition read_only (s : Store) (r : Store * list Event) : Prop :=
  r.1 = s ∧ Forall (λ op, is_write op = false) (executed r.2).

(** ** A sample catalogue for concrete runs *)
Definition dune : Book.doc :=
  {| Book._id := "b1"; Book.title := "Dune"; Book.author := "a1";
     Book.summary := "Desert planet"; Book.isbn := "9780441013593"; Book.genre := ["g1"] |}.

Definition emma : Book.doc :=
  {| Book._id := "b2"; Book.title := "Emma"; Book.author := "a2";
     Book.summary := "Matchmaking"; Book.isbn := "9780141439587"; Book.genre := [] |}.

Definition herbert : Author.doc :=
  {| Author._id := "a1"; Author.first_name := "Frank"; Author.family_name := "Herbert";
     Author.date_of_birth := Some {| year := 1920; month := 10; day := 8 |};
     Author.date_of_death := Some {| year := 1986; month := 2; day := 11 |} |}.

Definition austen : Author.doc :=
  {| Author._id := "a2"; Author.first_name := "Jane"; Author.family_name := "Austen";
     Author.date_of_birth := None;
     Author.date_of_death := Some {| year := 1817; month := 7; day := 18 |} |}.

Definition scifi : Genre.doc := {| Genre._id := "g1"; Genre.name := "Science Fiction" |}.

Definition copy1 : BookInstance.doc :=
  {| BookInstance._id := "i1"; BookInstance.book := "b1"; BookInstance.imprint := "Ace, 1990";
     BookInstance.status := "Available"; BookInstance.due_back := None |}.

Definition library : Store :=
  {| books := {[ "b1" := dune; "b2" := emma ]};
     bookinstances := [copy1];
     authors := [herbert; austen];
     genres := [scifi] |}.

(** A sample of validator.js for concrete runs, exact on ASCII text: the
    blanks stripped are the ASCII white space, the characters escaped are
    the eight that [escape] replaces by entities, and the length is the
    number of characters.  No general statement depends on it. *)
Definition ascii_space (c : ascii) : bool :=
  match Ascii.nat_of_ascii c with
  | 9 | 10 | 11 | 12 | 13 | 32 => true
  | _ => false
  end.

Fixpoint ascii_ltrim (s : string) : string :=
  match s with
  | String c s' => if ascii_space c then ascii_ltrim s' else s
  | EmptyString => EmptyString
  end.

Definition ascii_rtrim (s : string) : string := String.rev (ascii_ltrim (String.rev s)).

Definition ascii_trim (s : string) : string := ascii_rtrim (ascii_ltrim s).

Definition ascii_entity (c : ascii) : string :=
  match Ascii.nat_of_ascii c with
  | 38 => "&amp;"
  | 34 => "&quot;"
  | 39 => "&#x27;"
  | 60 => "&lt;"
  | 62 => "&gt;"
  | 47 => "&#x2F;"
  | 92 => "&#x5C;"
  | 96 => "&#96;"
  | _ => String c EmptyString
  end.

Fixpoint ascii_escape (s : string) : string :=
  match s with
  | String c s' => ascii_entity c +:+ ascii_escape s'
  | EmptyString => EmptyString
  end.

Definition ascii_isLength_min (n : nat) (s : string) : bool := bool_decide (n ≤ String.length s).

Definition ascii_validator : Validator :=
  {| trim := ascii_trim; escape := ascii_escape; isLength_min := ascii_isLength_min |}.

(** Faults for concrete runs: the count of authors fails. *)
Definition authors_down : StoreOp → option Error := λ op,
  match op with
  | Author_countDocuments => Some {| message := "connection lost"; status := None |}
  | _ => None
  end.

(** Faults for concrete runs: every write fails. *)
Definition writes_down : StoreOp → option Error := λ op,
  if is_write op then Some {| message := "not primary"; status := None |} else None.

(** A complete submission, and one with two required fields missing. *)
Definition dune_form : RawBody :=
  {| title := Some " Dune "; author := Some "a1"; summary := Some "Desert <planet>";
     isbn := Some "9780441013593"; genre := Multi [" g1"] |}.

Definition blank_form : RawBody :=
  {| title := Some "  "; author := Some "a1"; summary := None;
     isbn := Some "9780441013593"; genre := Scalar "g1" |}.

(** * Properties *)

(** Unfolds the plumbing of a handler, leaving the store and the faults. *)
Ltac run :=
  cbv beta iota zeta delta
    [mbind async_bind mret async_ret await all5 all3 all2 throw next res_render res_redirect
     emit query command asyncHandler after log result app fst snd].

Lemma string_app_assoc (s1 s2 s3 : string) : (s1 +:+ s2) +:+ s3 = s1 +:+ (s2 +:+ s3).
Proof.
  induction s1 as [|c s1 IH]; [reflexivity |].
  change (String c ((s1 +:+ s2) +:+ s3) = String c (s1 +:+ (s2 +:+ s3))).
  by rewrite IH.
Qed.

(** ** Author lifespan *)

(** C9 (as the code has it): the lifespan is the birth clause followed by the
    death clause, where the birth clause is ["Born: <date>"] and the death
    clause is [" - Died: <date>"], separator included, and each clause is
    empty when its date is absent.  So with both dates it reads
    ["Born: <date> - Died: <date>"], with the birth date only
    ["Born: <date>"], with the death date only [" - Died: <date>"], and with
    neither it is empty. *)
Theorem lifespan_clauses (fmt : Date → string) (a : Author.doc) :
  Author.lifespan fmt a =
    match Author.date_of_birth a, Author.date_of_death a with
    | Some b, Some d => "Born: " +:+ fmt b +:+ " - Died: " +:+ fmt d
    | Some b, None => "Born: " +:+ fmt b
    | None, Some d => " - Died: " +:+ fmt d
    | None, None => ""
    end.
Proof.
  unfold Author.lifespan.
  destruct (Author.date_of_birth a) as [b|], (Author.date_of_death a) as [d|];
    cbv zeta; rewrite ?string_app_assoc; reflexivity.
Qed.

(** C9 (as stated) fails for an author with a death date and no birth date:
    the separator stays in front of the remaining clause. *)
Lemma lifespan_death_only_keeps_separator :
  Author.lifespan date_med austen = " - Died: 18 Jul 1817"
  ∧ Author.lifespan_as_specified date_med austen = "Died: 18 Jul 1817"
  ∧ Author.lifespan date_med austen ≠ Author.lifespan_as_specified date_med austen.
Proof. split; [reflexivity | split; [reflexivity | discriminate]]. Qed.

(** ** Normalising the genre field *)

(** C7: both POST chains first turn the genre field into a sequence: an
    absent field becomes the empty sequence, a single value the one-element
    sequence holding it, and an array stays as it is; the handlers see the
    submission only through that sequence, and it is what is validated. *)
Theorem genre_normalized_first (lib : Validator)
    (faults : StoreOp → option Error) (id : Id) (b : RawBody) :
  genre_to_array Absent = []
  ∧ (∀ v, genre_to_array (Scalar v) = [v])
  ∧ (∀ vs, genre_to_array (Multi vs) = vs)
  ∧ genre (convert_genre b) = genre_to_array (genre b)
  ∧ genre (validate lib (convert_genre b)).1 = escape lib <$> genre_to_array (genre b)
  ∧ book_create_post faults lib id b = book_create_post faults lib id (genre_as_array b)
  ∧ book_update_post faults lib id b = book_update_post faults lib id (genre_as_array b).
Proof. repeat split; reflexivity. Qed.

(** ** The home page *)

Lemma first_rejection_None (faults : StoreOp → option Error) (ops : list StoreOp) :
  (∀ op, op ∈ ops → faults op = None) → first_rejection faults ops = None.
Proof.
  induction ops as [|op ops IH]; intros Hall; [reflexivity |].
  simpl. rewrite (Hall op) by left. apply IH. intros op' Hin. apply Hall. by right.
Qed.

Lemma first_rejection_Some (faults : StoreOp → option Error) (ops : list StoreOp) op e :
  op ∈ ops → faults op = Some e →
  ∃ op' e', op' ∈ ops ∧ faults op' = Some e' ∧ first_rejection faults ops = Some e'.
Proof.
  induction ops as [|o ops IH]; intros Hin Hf; [by apply not_elem_of_nil in Hin |].
  simpl. destruct (faults o) as [e0|] eqn:Ho.
  - exists o, e0. split_and!; [left | done | done].
  - apply elem_of_cons in Hin as [-> | Hin]; [congruence |].
    destruct (IH Hin Hf) as (op' & e' & Hin' & Hf' & Hfirst).
    exists op', e'. split_and!; [by right | done | done].
Qed.

Lemma index_run (faults : StoreOp → option Error) (s : Store) :
  index faults s =
    (s, (Exec <$> count_queries) ++
        [match first_rejection faults count_queries with
         | Some e => Next e
         | None =>
             Render "index"
               (index_locals "Local Library Home" (size (books s)) (length (bookinstances s))
                  (length (available s)) (length (authors s)) (length (genres s)))
         end]).
Proof.
  unfold index, count_queries, first_rejection. run.
  destruct (faults Book_countDocuments), (faults BookInstance_countDocuments),
    (faults BookInstance_countDocuments_Available), (faults Author_countDocuments),
    (faults Genre_countDocuments); reflexivity.
Qed.

(** C8: the index operation issues exactly the five count queries (books,
    book instances, available book instances, authors, genres), all of them
    whatever their outcomes, and changes nothing; when all five resolve it
    renders the summary view with the five counts, after the queries; when
    any of them fails it renders nothing and hands the error of a failed
    count to [next]. *)
Theorem index_all_or_nothing (faults : StoreOp → option Error) (s : Store) :
  (index faults s).1 = s
  ∧ executed (index faults s).2 = count_queries
  ∧ ((∀ op, op ∈ count_queries → faults op = None) →
     (index faults s).2 =
       (Exec <$> count_queries) ++
       [Render "index"
          (index_locals "Local Library Home" (size (books s)) (length (bookinstances s))
             (length (available s)) (length (authors s)) (length (genres s)))])
  ∧ (∀ op e, op ∈ count_queries → faults op = Some e →
     ∃ op' e', op' ∈ count_queries ∧ faults op' = Some e'
       ∧ (index faults s).2 = (Exec <$> count_queries) ++ [Next e']).
Proof.
  rewrite index_run. split_and!.
  - reflexivity.
  - by destruct (first_rejection faults count_queries).
  - intros Hok. by rewrite first_rejection_None.
  - intros op e Hin Hf.
    destruct (first_rejection_Some faults count_queries op e Hin Hf) as (op' & e' & ? & ? & ->).
    by exists op', e'.
Qed.

Lemma index_all_or_nothing_witness :
  (index reliable library).2 =
    (Exec <$> count_queries) ++ [Render "index" (index_locals "Local Library Home" 2 1 1 2 1)]
  ∧ ∃ e, authors_down Author_countDocuments = Some e
       ∧ ∃ op' e', op' ∈ count_queries ∧ authors_down op' = Some e'
           ∧ (index authors_down library).2 = (Exec <$> count_queries) ++ [Next e'].
Proof.
  split.
  - apply (proj1 (proj2 (proj2 (index_all_or_nothing reliable library)))). reflexivity.
  - eexists. split; [reflexivity |].
    eapply (proj2 (proj2 (proj2 (index_all_or_nothing authors_down library)))
              Author_countDocuments).
    + unfold count_queries. do 3 right. left.
    + reflexivity.
Defined.

(** ** Detail, and the update form *)

Lemma book_detail_run (faults : StoreOp → option Error) (id : Id) (s : Store) :
  book_detail faults id s =
    (s, [Exec (Book_findById id); Exec (BookInstance_find id);
         match first_rejection faults [Book_findById id; BookInstance_find id] with
         | Some e => Next e
         | None =>
             match books s !! id with
             | None => Next not_found
             | Some b =>
                 Render "book_detail"
                   (book_detail_locals (Book.title b) (populate s b) (instances_of id s))
             end
         end]).
Proof.
  unfold book_detail, Book_findById_populate_exec, BookInstance_find_exec, first_rejection. run.
  destruct (faults (Book_findById id)), (faults (BookInstance_find id)); try reflexivity.
  by destruct (books s !! id).
Qed.

Lemma book_update_get_run (faults : StoreOp → option Error)
    (includes_joined : list Genre.doc → Id → bool) (id : Id) (s : Store) :
  book_update_get faults includes_joined id s =
    (s, [Exec (Book_findById id); Exec Author_find; Exec Genre_find;
         match first_rejection faults [Book_findById id; Author_find; Genre_find] with
         | Some e => Next e
         | None =>
             match books s !! id with
             | None => Next not_found
             | Some b =>
                 Render "book_form"
                   (book_form_locals "Update Book" (sort_by Author.family_name (authors s))
                      (mark_checked (includes_joined (pb_genre (populate s b)))
                         (sort_by Genre.name (genres s)))
                      (Some (Joined (populate s b))) None)
             end
         end]).
Proof.
  unfold book_update_get, Book_findById_populate_exec, Author_find_sort_exec,
    Genre_find_sort_exec, first_rejection. run.
  destruct (faults (Book_findById id)), (faults Author_find), (faults Genre_find);
    try reflexivity.
  by destruct (books s !! id).
Qed.

(** C5: a detail GET or an update-form GET whose identifier resolves to no
    Book hands [next] an error marked with status 404, renders no view, and
    leaves the store as it was. *)
Theorem unresolved_book_not_found (includes_joined : list Genre.doc → Id → bool)
    (id : Id) (s : Store) :
  books s !! id = None →
  status not_found = Some 404
  ∧ (book_detail reliable id s).1 = s
  ∧ responses (book_detail reliable id s).2 = [Next not_found]
  ∧ (book_update_get reliable includes_joined id s).1 = s
  ∧ responses (book_update_get reliable includes_joined id s).2 = [Next not_found].
Proof.
  intros Hnone. rewrite book_detail_run, book_update_get_run. simpl.
  rewrite Hnone. split_and!; reflexivity.
Qed.

Lemma unresolved_book_not_found_witness :
  books library !! "b9" = None
  ∧ responses (book_detail reliable "b9" library).2 =
      [Next {| message := "Book not found"; status := Some 404 |}]
  ∧ responses (book_update_get reliable (λ _ _, false) "b9" library).2 =
      [Next {| message := "Book not found"; status := Some 404 |}].
Proof.
  split; [reflexivity |].
  destruct (unresolved_book_not_found (λ _ _, false) "b9" library) as (_ & _ & Hd & _ & Hu);
    [reflexivity |].
  split; [exact Hd | exact Hu].
Defined.

(** ** Deleting a book *)

Lemma book_delete_get_run (faults : StoreOp → option Error) (id : Id) (s : Store) :
  book_delete_get faults id s =
    (s, [Exec (Book_findById id); Exec (BookInstance_find id)] ++
        match first_rejection faults [Book_findById id; BookInstance_find id] with
        | Some e => [Next e]
        | None =>
            (if bool_decide (books s !! id = None) then [Redirect "/catalog/books"] else []) ++
            [Render "book_delete"
               (book_delete_locals "Delete Book" (books s !! id) (instances_of id s))]
        end).
Proof.
  unfold book_delete_get, Book_findById_exec, BookInstance_find_exec, first_rejection. run.
  destruct (faults (Book_findById id)), (faults (BookInstance_find id)); try reflexivity.
  by case_bool_decide.
Qed.

(** C4 (what the code does): on a delete GET whose identifier resolves to no
    Book, the handler redirects to the book list and then goes on to render
    the confirmation view, with no book in it. *)
Theorem book_delete_get_renders_after_redirect :
  books library !! "b9" = None
  ∧ responses (book_delete_get reliable "b9" library).2 =
      [Redirect "/catalog/books";
       Render "book_delete" (book_delete_locals "Delete Book" None [])].
Proof. split; reflexivity. Qed.

Lemma book_delete_post_run (faults : StoreOp → option Error) (bookid : Id) (s : Store) :
  book_delete_post faults bookid s =
    match first_rejection faults [Book_findById bookid; BookInstance_find bookid] with
    | Some e => (s, [Exec (Book_findById bookid); Exec (BookInstance_find bookid); Next e])
    | None =>
        if bool_decide (0 < length (instances_of bookid s)) then
          (s, [Exec (Book_findById bookid); Exec (BookInstance_find bookid);
               Render "book_delete"
                 (book_delete_locals "Delete Book" (books s !! bookid) (instances_of bookid s))])
        else
          match faults (Book_findByIdAndDelete bookid) with
          | Some e =>
              (s, [Exec (Book_findById bookid); Exec (BookInstance_find bookid);
                   Exec (Book_findByIdAndDelete bookid); Next e])
          | None =>
              (set_books (delete bookid) s,
               [Exec (Book_findById bookid); Exec (BookInstance_find bookid);
                Exec (Book_findByIdAndDelete bookid); Redirect "/catalog/books"])
          end
    end.
Proof.
  unfold book_delete_post, Book_findById_exec, BookInstance_find_exec,
    Book_findByIdAndDelete_exec, first_rejection. run.
  destruct (faults (Book_findById bookid)), (faults (BookInstance_find bookid));
    try reflexivity.
  case_bool_decide; [reflexivity |].
  by destruct (faults (Book_findByIdAndDelete bookid)).
Qed.

(** C1: on a delete POST for a Book, when at least one BookInstance
    references the Book the store is left as it was (whatever the store
    calls do) and the confirmation view is rendered again, with the book and
    its instances and with no error handed to [next]; when no BookInstance
    references it the Book is removed, nothing else changes, and the response
    is a redirect to the book list. *)
Theorem book_delete_post_guard (faults : StoreOp → option Error) (bookid : Id) (s : Store) :
  (0 < length (instances_of bookid s) →
   (book_delete_post faults bookid s).1 = s
   ∧ responses (book_delete_post reliable bookid s).2 =
       [Render "book_delete"
          (book_delete_locals "Delete Book" (books s !! bookid) (instances_of bookid s))])
  ∧ (length (instances_of bookid s) = 0 →
     books (book_delete_post reliable bookid s).1 = delete bookid (books s)
     ∧ books (book_delete_post reliable bookid s).1 !! bookid = None
     ∧ bookinstances (book_delete_post reliable bookid s).1 = bookinstances s
     ∧ authors (book_delete_post reliable bookid s).1 = authors s
     ∧ genres (book_delete_post reliable bookid s).1 = genres s
     ∧ responses (book_delete_post reliable bookid s).2 = [Redirect "/catalog/books"]).
Proof.
  rewrite !book_delete_post_run. split.
  - intros Hsome. rewrite !bool_decide_eq_true_2 by done.
    split; [| reflexivity]. by destruct (first_rejection faults _).
  - intros Hzero. rewrite bool_decide_eq_false_2 by lia. simpl.
    split_and!; try reflexivity. apply lookup_delete_eq.
Qed.

Lemma book_delete_post_guard_witness :
  (0 < length (instances_of "b1" library)
   ∧ (book_delete_post reliable "b1" library).1 = library
   ∧ responses (book_delete_post reliable "b1" library).2 =
       [Render "book_delete" (book_delete_locals "Delete Book" (Some dune) [copy1])])
  ∧ (length (instances_of "b2" library) = 0
     ∧ books (book_delete_post reliable "b2" library).1 !! "b2" = None
     ∧ books (book_delete_post reliable "b2" library).1 !! "b1" = Some dune
     ∧ responses (book_delete_post reliable "b2" library).2 = [Redirect "/catalog/books"]).
Proof.
  split.
  - split; [vm_compute; lia |].
    destruct (proj1 (book_delete_post_guard reliable "b1" library)) as [Hs Hr];
      [vm_compute; lia |].
    split; [exact Hs | exact Hr].
  - split; [reflexivity |].
    destruct (proj2 (book_delete_post_guard reliable "b2" library))
      as (Hb & Hgone & _ & _ & _ & Hr); [reflexivity |].
    split; [exact Hgone |]. split; [| exact Hr].
    rewrite Hb. reflexivity.
Defined.

(** ** Validation *)

Lemma required_errors (lib : Validator) (f m : string) (raw : option string) :
  (required lib f m raw).2 =
    if fails_check lib raw
    then [ {| path := f; msg := m; value := trim lib (default "" raw) |} ]
    else [].
Proof. unfold required, fails_check. cbn [snd]. by destruct (isLength_min lib 1 _). Qed.

(** A field of which nothing is left after trimming fails its chain, as
    long as the empty text has no length of one or more. *)
Lemma empty_after_trim_fails (lib : Validator) (raw : option string) :
  isLength_min lib 1 "" = false → empty_after_trim lib raw → fails_check lib raw = true.
Proof. unfold empty_after_trim, fails_check. by intros Hlen ->; rewrite Hlen. Qed.

Lemma missing_field (lib : Validator) (b : RawBody) (f : string * option string) :
  f ∈ required_fields b → fails_check lib f.2 = true → f.1 ∈ missing lib b.
Proof.
  intros Hin Hfails. unfold missing. apply list_elem_of_fmap.
  exists f. split; [reflexivity |]. by apply list_elem_of_filter.
Qed.

Lemma validate_clean (lib : Validator) (_id : Id) (b : RawBody) :
  new_Book _id (validate lib (convert_genre b)).1 = sanitized lib _id b.
Proof. reflexivity. Qed.

Lemma validate_errors (lib : Validator) (b : RawBody) :
  (validate lib (convert_genre b)).2 =
    (required lib "title" "Title must not be empty." (title b)).2 ++
    (required lib "author" "Author must not be empty." (author b)).2 ++
    (required lib "summary" "Summary must not be empty." (summary b)).2 ++
    (required lib "isbn" "ISBN must not be empty." (isbn b)).2.
Proof. reflexivity. Qed.

Lemma missing_NoDup (lib : Validator) (b : RawBody) : NoDup (missing lib b).
Proof.
  unfold missing, required_fields. rewrite !filter_cons, filter_nil. cbn [snd].
  destruct (fails_check lib (title b)), (fails_check lib (author b)),
    (fails_check lib (summary b)), (fails_check lib (isbn b)); compute_done.
Qed.

(** The errors collected are one per missing field, in the order of the
    chains, each with the message of its field. *)
Lemma validate_errors_missing (lib : Validator) (b : RawBody) :
  path <$> (validate lib (convert_genre b)).2 = missing lib b
  ∧ ∀ e, e ∈ (validate lib (convert_genre b)).2 → msg e = message_for (path e).
Proof.
  rewrite validate_errors, !required_errors.
  unfold missing, required_fields. rewrite !filter_cons, filter_nil. cbn [snd].
  destruct (fails_check lib (title b)), (fails_check lib (author b)),
    (fails_check lib (summary b)), (fails_check lib (isbn b)); cbn;
    (split; [reflexivity |]); intros e He; set_unfold;
    repeat (destruct He as [-> | He]; [reflexivity |]); done.
Qed.

Lemma validate_accepts (lib : Validator) (b : RawBody) :
  missing lib b = [] ↔ (validate lib (convert_genre b)).2 = [].
Proof.
  rewrite <- (proj1 (validate_errors_missing lib b)).
  split; [apply fmap_nil_inv | by intros ->].
Qed.

(** ** Creating and updating a book *)

Lemma render_form_again_run (faults : StoreOp → option Error) (form_title : string)
    (book : Book.doc) (errors : list ValidationError) (s : Store) :
  asyncHandler (render_form_again faults form_title book errors) s =
    (s, [Exec Author_find; Exec Genre_find;
         match first_rejection faults [Author_find; Genre_find] with
         | Some e => Next e
         | None =>
             Render "book_form"
               (book_form_locals form_title (sort_by Author.family_name (authors s))
                  (mark_checked (λ g, bool_decide (g ∈ Book.genre book))
                     (sort_by Genre.name (genres s)))
                  (Some (Unsaved book)) (Some errors))
         end]).
Proof.
  unfold render_form_again, Author_find_sort_exec, Genre_find_sort_exec, first_rejection. run.
  by destruct (faults Author_find), (faults Genre_find).
Qed.

Lemma book_create_post_run (lib : Validator)
    (faults : StoreOp → option Error) (fresh : Id) (body : RawBody)
    (s : Store) :
  book_create_post faults lib fresh body s =
    if bool_decide ((validate lib (convert_genre body)).2 = []) then
      match faults (Book_save (sanitized lib fresh body)) with
      | Some e => (s, [Exec (Book_save (sanitized lib fresh body)); Next e])
      | None =>
          (set_books (insert fresh (sanitized lib fresh body)) s,
           [Exec (Book_save (sanitized lib fresh body)); Redirect (Book.url (sanitized lib fresh body))])
      end
    else
      asyncHandler
        (render_form_again faults "Create Book" (sanitized lib fresh body)
           (validate lib (convert_genre body)).2) s.
Proof.
  rewrite <- (validate_clean lib fresh body). unfold book_create_post.
  destruct (validate lib (convert_genre body)) as [clean errors]. cbn [fst snd].
  case_bool_decide; cbn [negb]; [| reflexivity].
  unfold save. run. by destruct (faults (Book_save (new_Book fresh clean))).
Qed.

Lemma book_update_post_run (lib : Validator)
    (faults : StoreOp → option Error) (id : Id) (body : RawBody)
    (s : Store) :
  book_update_post faults lib id body s =
    if bool_decide ((validate lib (convert_genre body)).2 = []) then
      match faults (Book_findByIdAndUpdate id (sanitized lib id body)) with
      | Some e => (s, [Exec (Book_findByIdAndUpdate id (sanitized lib id body)); Next e])
      | None =>
          match books s !! id with
          | Some old =>
              (set_books (insert id (sanitized lib id body)) s,
               [Exec (Book_findByIdAndUpdate id (sanitized lib id body)); Redirect (Book.url old)])
          | None =>
              (s, [Exec (Book_findByIdAndUpdate id (sanitized lib id body));
                   Next (null_property "url")])
          end
      end
    else
      asyncHandler
        (render_form_again faults "Update Book" (sanitized lib id body)
           (validate lib (convert_genre body)).2) s.
Proof.
  rewrite <- (validate_clean lib id body). unfold book_update_post.
  destruct (validate lib (convert_genre body)) as [clean errors]. cbn [fst snd].
  case_bool_decide; cbn [negb]; [| reflexivity].
  unfold Book_findByIdAndUpdate_call. run.
  destruct (faults (Book_findByIdAndUpdate id (new_Book id clean))); [reflexivity |].
  by destruct (books s !! id).
Qed.

(** C2: when some required field (title, author, summary, isbn) of a create
    or update POST is empty after trimming, the store is left as it was
    (whatever the store calls do), and the form is rendered again with
    errors whose fields are exactly the fields that fail their chain, each
    once and each with the message of its field; every field that is empty
    after trimming is among them.  The one fact about validator.js the
    statement rests on is that the empty text has no length of one or more. *)
Theorem missing_field_rejected (lib : Validator) (faults : StoreOp → option Error)
    (fresh id : Id) (body : RawBody) (s : Store) :
  isLength_min lib 1 "" = false →
  Exists (λ f, empty_after_trim lib f.2) (required_fields body) →
  (book_create_post faults lib fresh body s).1 = s
  ∧ (book_update_post faults lib id body s).1 = s
  ∧ ∃ errs,
      path <$> errs = missing lib body
      ∧ NoDup (path <$> errs)
      ∧ (∀ f, f ∈ required_fields body → empty_after_trim lib f.2 → f.1 ∈ path <$> errs)
      ∧ (∀ e, e ∈ errs → msg e = message_for (path e))
      ∧ (∃ allAuthors allGenres book,
           responses (book_create_post reliable lib fresh body s).2 =
             [Render "book_form"
                (book_form_locals "Create Book" allAuthors allGenres
                   (Some (Unsaved book)) (Some errs))])
      ∧ (∃ allAuthors allGenres book,
           responses (book_update_post reliable lib id body s).2 =
             [Render "book_form"
                (book_form_locals "Update Book" allAuthors allGenres
                   (Some (Unsaved book)) (Some errs))]).
Proof.
  intros Hlen Hempty.
  destruct (validate_errors_missing lib body) as [Hpaths Hmsgs].
  assert (∀ f, f ∈ required_fields body → empty_after_trim lib f.2 →
            f.1 ∈ missing lib body) as Hcovered.
  { intros f Hin Hf. apply missing_field; [done |]. by apply empty_after_trim_fails. }
  assert ((validate lib (convert_genre body)).2 ≠ []) as Herrs.
  { apply Exists_exists in Hempty as (f & Hin & Hf).
    intros Hnil%validate_accepts. specialize (Hcovered f Hin Hf).
    rewrite Hnil in Hcovered. by apply not_elem_of_nil in Hcovered. }
  rewrite !book_create_post_run, !book_update_post_run.
  rewrite !bool_decide_eq_false_2 by done.
  rewrite !render_form_again_run.
  split_and!; [reflexivity | reflexivity |].
  exists (validate lib (convert_genre body)).2.
  split_and!.
  - exact Hpaths.
  - rewrite Hpaths. apply missing_NoDup.
  - rewrite Hpaths. exact Hcovered.
  - exact Hmsgs.
  - by eexists _, _, _.
  - by eexists _, _, _.
Qed.

Lemma missing_field_rejected_witness :
  isLength_min ascii_validator 1 "" = false
  ∧ Exists (λ f, empty_after_trim ascii_validator f.2) (required_fields blank_form)
  ∧ (book_create_post reliable ascii_validator "b3" blank_form library).1 = library
  ∧ (book_update_post reliable ascii_validator "b1" blank_form library).1 = library
  ∧ ∃ errs,
      path <$> errs = missing ascii_validator blank_form
      ∧ ∃ allAuthors allGenres book,
          responses (book_create_post reliable ascii_validator "b3" blank_form library).2 =
            [Render "book_form"
               (book_form_locals "Create Book" allAuthors allGenres
                  (Some (Unsaved book)) (Some errs))].
Proof.
  split; [reflexivity |].
  split; [apply Exists_cons; left; reflexivity |].
  destruct (missing_field_rejected ascii_validator reliable "b3" "b1" blank_form library)
    as (Hc & Hu & errs & Hpaths & _ & _ & _ & Hform & _);
    [reflexivity | apply Exists_cons; left; reflexivity |].
  split; [exact Hc |]. split; [exact Hu |].
  exists errs. split; [exact Hpaths | exact Hform].
Defined.

(** C3 (what the code does): on a create POST with every required field
    filled in and a genre value that starts with a blank, the record
    persisted has its title trimmed and escaped but keeps the blank of the
    genre value: the genre chain escapes and does not trim, so the record
    is not the trimmed-and-escaped submission. *)
Theorem genre_values_are_not_trimmed :
  missing ascii_validator dune_form = []
  ∧ genre dune_form = Multi [" g1"]
  ∧ Book.genre (trimmed_and_escaped ascii_validator "b3" dune_form) = ["g1"]
  ∧ books (book_create_post reliable ascii_validator "b3" dune_form library).1 !! "b3" =
      Some {| Book._id := "b3"; Book.title := "Dune"; Book.author := "a1";
              Book.summary := "Desert &lt;planet&gt;"; Book.isbn := "9780441013593";
              Book.genre := [" g1"] |}
  ∧ books (book_create_post reliable ascii_validator "b3" dune_form library).1 !! "b3" ≠
      Some (trimmed_and_escaped ascii_validator "b3" dune_form).
Proof.
  split_and!; [reflexivity | reflexivity | reflexivity | reflexivity |
               vm_compute; discriminate].
Qed.

(** C6: whatever is submitted to an update POST and whatever the store calls
    do, the only write the handler issues is an update-in-place of the
    document under the identifier of the request path, with a record that
    carries that same identifier (never a save of a new document); the set of
    identifiers in the store is unchanged, every book of the resulting store
    is either as it was or is the book under the path identifier carrying
    that identifier, and a store whose books are filed under their own
    identifiers stays so. *)
Theorem update_keeps_identifier (lib : Validator)
    (faults : StoreOp → option Error) (id : Id) (body : RawBody)
    (s : Store) :
  (∀ op, op ∈ executed (book_update_post faults lib id body s).2 →
     match op with
     | Book_findByIdAndUpdate k b => k = id ∧ Book._id b = id
     | Author_find | Genre_find => True
     | _ => False
     end)
  ∧ dom (books (book_update_post faults lib id body s).1) = dom (books s)
  ∧ (∀ k b, books (book_update_post faults lib id body s).1 !! k = Some b →
       books s !! k = Some b ∨ (k = id ∧ Book._id b = id))
  ∧ (well_keyed s → well_keyed (book_update_post faults lib id body s).1).
Proof.
  assert (∀ k b, books (book_update_post faults lib id body s).1 !! k = Some b →
            books s !! k = Some b ∨ (k = id ∧ Book._id b = id)) as Hbooks.
  { rewrite book_update_post_run, render_form_again_run.
    case_bool_decide; [| by left].
    destruct (faults _); [by left |].
    destruct (books s !! id) as [old|] eqn:Hold; [| by left].
    intros k b. cbn. rewrite lookup_insert. case_decide as Hk.
    - intros [= <-]. by right.
    - by left. }
  split_and!.
  - rewrite book_update_post_run, render_form_again_run.
    destruct (bool_decide _).
    + destruct (faults _); [| destruct (books s !! id)]; cbn;
        intros op Hop; apply list_elem_of_singleton in Hop as ->; by split.
    + destruct (first_rejection faults _); cbn;
        intros op Hop; set_unfold; by destruct Hop as [-> | [-> | []]].
  - rewrite book_update_post_run, render_form_again_run.
    case_bool_decide; [| reflexivity].
    destruct (faults _); [reflexivity |].
    destruct (books s !! id) as [old|] eqn:Hold; [| reflexivity].
    cbn. by apply dom_insert_lookup_L.
  - exact Hbooks.
  - intros Hwf k b Hk. destruct (Hbooks k b Hk) as [Hold | [-> ?]]; [by apply Hwf | done].
Qed.

(** C10: an update POST that passes validation but whose path identifier
    resolves to no Book issues the update, which yields no record and leaves
    the store as it was; reading the url of that result throws, and the error
    goes to [next]: it is a TypeError with no status, not the not-found
    error, and nothing is rendered or redirected. *)
Theorem update_of_unresolved_book_throws (lib : Validator) (id : Id) (body : RawBody) (s : Store) :
  missing lib body = [] →
  books s !! id = None →
  (book_update_post reliable lib id body s).1 = s
  ∧ executed (book_update_post reliable lib id body s).2 =
      [Book_findByIdAndUpdate id (sanitized lib id body)]
  ∧ responses (book_update_post reliable lib id body s).2 = [Next (null_property "url")]
  ∧ status (null_property "url") = None
  ∧ null_property "url" ≠ not_found.
Proof.
  intros Hvalid Hnone. apply validate_accepts in Hvalid.
  rewrite !book_update_post_run, !bool_decide_eq_true_2 by done. cbn.
  rewrite Hnone. split_and!; try reflexivity. discriminate.
Qed.

Lemma update_of_unresolved_book_throws_witness :
  missing ascii_validator dune_form = []
  ∧ books library !! "b9" = None
  ∧ (book_update_post reliable ascii_validator "b9" dune_form library).1 = library
  ∧ responses (book_update_post reliable ascii_validator "b9" dune_form library).2 =
      [Next {| message := "Cannot read properties of null (reading 'url')"; status := None |}].
Proof.
  split; [reflexivity |]. split; [reflexivity |].
  destruct (update_of_unresolved_book_throws ascii_validator "b9" dune_form library)
    as (Hs & _ & Hr & _ & _); [reflexivity | reflexivity |].
  split; [exact Hs | exact Hr].
Defined.

(** ** Sorting by a key *)

Lemma insert_sorted_Permutation {A} (key : A → string) (x : A) (l : list A) :
  insert_sorted key x l ≡ₚ x :: l.
Proof.
  induction l as [|y l IH]; [reflexivity |].
  simpl. destruct (String.leb (key x) (key y)); [reflexivity |].
  rewrite IH. apply Permutation_swap.
Qed.

Lemma sort_by_Permutation {A} (key : A → string) (l : list A) : sort_by key l ≡ₚ l.
Proof.
  induction l as [|x l IH]; [reflexivity |].
  unfold sort_by in *. simpl. by rewrite insert_sorted_Permutation, IH.
Qed.

Lemma insert_sorted_ascending {A} (key : A → string) (x : A) (l : list A) :
  ascending key l → ascending key (insert_sorted key x l).
Proof.
  unfold ascending. induction 1 as [|y l Hl IH Hhd]; simpl.
  - repeat constructor.
  - destruct (String.leb (key x) (key y)) eqn:Hxy.
    + repeat constructor; done.
    + constructor; [exact IH |].
      assert (String.leb (key y) (key x) = true) as Hyx
        by (destruct (String.leb_total (key x) (key y)); congruence).
      destruct Hhd as [|z l Hyz]; simpl; [by constructor |].
      destruct (String.leb (key x) (key z)); by constructor.
Qed.

Lemma sort_by_ascending {A} (key : A → string) (l : list A) : ascending key (sort_by key l).
Proof.
  induction l as [|x l IH]; [constructor |].
  by apply insert_sorted_ascending.
Qed.

(** ** The Author's display name and path *)

(** X1: the display name is empty exactly when the first name or the family
    name is empty, and is the family name, a comma and the first name
    otherwise. *)
Theorem author_name_parts (a : Author.doc) :
  (Author.name a = "" ↔ Author.first_name a = "" ∨ Author.family_name a = "")
  ∧ (Author.first_name a ≠ "" → Author.family_name a ≠ "" →
     Author.name a = Author.family_name a +:+ ", " +:+ Author.first_name a).
Proof.
  unfold Author.name, Author.truthy.
  destruct (Author.first_name a) as [|c f], (Author.family_name a) as [|d g]; simpl;
    split; try tauto; try (intros; congruence).
  split; [discriminate | intros [|]; discriminate].
Qed.

(** X2: two authors have the same detail path exactly when they have the
    same identifier. *)
Theorem author_url_identifies (a b : Author.doc) :
  Author.url a = Author.url b ↔ Author._id a = Author._id b.
Proof.
  unfold Author.url. split; [apply String.app_inj | by intros ->].
Qed.

(** ** Joined references *)

Lemma populate_author_Some (s : Store) (b : Book.doc) (a : Author.doc) :
  pb_author (populate s b) = Some a → a ∈ authors s ∧ Author._id a = Book.author b.
Proof.
  intros [Hin Hid]%find_some. split; [by apply list_elem_of_In |].
  by apply bool_decide_eq_true in Hid.
Qed.

Lemma populate_author_None (s : Store) (b : Book.doc) :
  pb_author (populate s b) = None → ∀ a, a ∈ authors s → Author._id a ≠ Book.author b.
Proof.
  intros Hnone a Hin%list_elem_of_In.
  apply (find_none _ _ Hnone) in Hin. by apply bool_decide_eq_false in Hin.
Qed.

Lemma populate_genre (s : Store) (b : Book.doc) (g : Genre.doc) :
  g ∈ pb_genre (populate s b) → g ∈ genres s ∧ Genre._id g ∈ Book.genre b.
Proof.
  intros (ref & Href & [Hin Hid]%find_some)%list_elem_of_omap.
  apply bool_decide_eq_true in Hid. split; [by apply list_elem_of_In | by rewrite Hid].
Qed.

Lemma store_eq (s s' : Store) :
  books s = books s' → bookinstances s = bookinstances s' → authors s = authors s' →
  genres s = genres s' → s = s'.
Proof. destruct s, s'; simpl; by intros -> -> -> ->. Qed.

Lemma mark_checked_choice (selected : Id → bool) (l : list Genre.doc) :
  choice <$> mark_checked selected l = l.
Proof.
  unfold mark_checked. rewrite <- list_fmap_compose. apply list_fmap_id.
Qed.

Lemma mark_checked_checked (selected : Id → bool) (l : list Genre.doc) (c : GenreChoice) :
  c ∈ mark_checked selected l → checked c = selected (Genre._id (choice c)).
Proof. unfold mark_checked. by intros (g & -> & _)%list_elem_of_fmap. Qed.

(** ** The GET handlers *)

Lemma book_create_get_run (faults : StoreOp → option Error) (s : Store) :
  book_create_get faults s =
    (s, [Exec Author_find; Exec Genre_find;
         match first_rejection faults [Author_find; Genre_find] with
         | Some e => Next e
         | None =>
             Render "book_form"
               (book_form_locals "Create Book" (sort_by Author.family_name (authors s))
                  (mark_checked (λ _, false) (sort_by Genre.name (genres s))) None None)
         end]).
Proof.
  unfold book_create_get, Author_find_sort_exec, Genre_find_sort_exec, first_rejection. run.
  by destruct (faults Author_find), (faults Genre_find).
Qed.

(** X3: whatever the store calls do, the GET handlers (home page, detail,
    create form, update form, delete confirmation, book list) leave the
    store as it was, and none of them issues a write. *)
Theorem get_handlers_read_only (faults : StoreOp → option Error)
    (includes_joined : list Genre.doc → Id → bool) (id : Id) (s : Store) :
  read_only s (index faults s)
  ∧ read_only s (book_detail faults id s)
  ∧ read_only s (book_create_get faults s)
  ∧ read_only s (book_update_get faults includes_joined id s)
  ∧ read_only s (book_delete_get faults id s)
  ∧ ∀ fault, (book_list fault s).1 = s.
Proof.
  unfold read_only.
  rewrite index_run, book_detail_run, book_create_get_run, book_update_get_run,
    book_delete_get_run.
  split_and!; try reflexivity.
  - destruct (first_rejection faults count_queries); repeat constructor.
  - destruct (first_rejection faults _); [| destruct (books s !! id)]; repeat constructor.
  - destruct (first_rejection faults _); repeat constructor.
  - destruct (first_rejection faults _); [| destruct (books s !! id)]; repeat constructor.
  - destruct (first_rejection faults _); [| case_bool_decide]; repeat constructor.
  - by intros [e|].
Qed.

(** X4: a detail GET whose identifier resolves renders the detail view
    under the book's title, with the stored book, its author joined when an
    author of the store has the referenced identifier (none otherwise), only
    genres of the store the book refers to, and exactly the instances of the
    store that reference the book. *)
Theorem book_detail_found (id : Id) (s : Store) (b : Book.doc) :
  books s !! id = Some b →
  ∃ joined insts,
    responses (book_detail reliable id s).2 =
      [Render "book_detail" (book_detail_locals (Book.title b) joined insts)]
    ∧ pb_book joined = b
    ∧ (∀ i, i ∈ insts ↔ i ∈ bookinstances s ∧ BookInstance.book i = id)
    ∧ (∀ a, pb_author joined = Some a → a ∈ authors s ∧ Author._id a = Book.author b)
    ∧ (pb_author joined = None → ∀ a, a ∈ authors s → Author._id a ≠ Book.author b)
    ∧ (∀ g, g ∈ pb_genre joined → g ∈ genres s ∧ Genre._id g ∈ Book.genre b).
Proof.
  intros Hb. exists (populate s b), (instances_of id s).
  rewrite book_detail_run. simpl. rewrite Hb. split_and!.
  - reflexivity.
  - reflexivity.
  - intros i. unfold instances_of. rewrite list_elem_of_filter. tauto.
  - apply populate_author_Some.
  - apply populate_author_None.
  - apply populate_genre.
Qed.

Lemma book_detail_found_witness :
  books library !! "b1" = Some dune
  ∧ ∃ joined insts,
      responses (book_detail reliable "b1" library).2 =
        [Render "book_detail" (book_detail_locals "Dune" joined insts)]
      ∧ pb_book joined = dune.
Proof.
  split; [reflexivity |].
  destruct (book_detail_found "b1" library dune) as (joined & insts & Hr & Hb & _);
    [reflexivity |].
  by exists joined, insts.
Defined.

(** X5: the update form's GET, when the identifier resolves, renders the
    form with the stored book and its references joined (the author when an
    author of the store has the referenced identifier, none otherwise, and
    only genres of the store the book refers to), with every author and every
    genre of the store, in ascending order of family name and of name, and
    with no error list. *)
Theorem update_form_shows_stored_book (includes_joined : list Genre.doc → Id → bool)
    (id : Id) (s : Store) (b : Book.doc) :
  books s !! id = Some b →
  ∃ allAuthors allGenres joined,
    responses (book_update_get reliable includes_joined id s).2 =
      [Render "book_form"
         (book_form_locals "Update Book" allAuthors allGenres (Some (Joined joined)) None)]
    ∧ joined = populate s b
    ∧ pb_book joined = b
    ∧ (∀ a, pb_author joined = Some a → a ∈ authors s ∧ Author._id a = Book.author b)
    ∧ (pb_author joined = None → ∀ a, a ∈ authors s → Author._id a ≠ Book.author b)
    ∧ (∀ g, g ∈ pb_genre joined → g ∈ genres s ∧ Genre._id g ∈ Book.genre b)
    ∧ allAuthors ≡ₚ authors s
    ∧ ascending Author.family_name allAuthors
    ∧ choice <$> allGenres ≡ₚ genres s
    ∧ ascending Genre.name (choice <$> allGenres).
Proof.
  intros Hb. rewrite book_update_get_run. cbn [first_rejection reliable]. rewrite Hb.
  eexists _, _, _. split_and!.
  - reflexivity.
  - reflexivity.
  - reflexivity.
  - apply populate_author_Some.
  - apply populate_author_None.
  - apply populate_genre.
  - apply sort_by_Permutation.
  - apply sort_by_ascending.
  - rewrite mark_checked_choice. apply sort_by_Permutation.
  - rewrite mark_checked_choice. apply sort_by_ascending.
Qed.

Lemma update_form_shows_stored_book_witness :
  books library !! "b1" = Some dune
  ∧ ∃ allAuthors allGenres joined,
      responses (book_update_get reliable (λ _ _, false) "b1" library).2 =
        [Render "book_form"
           (book_form_locals "Update Book" allAuthors allGenres (Some (Joined joined)) None)]
      ∧ joined = {| pb_book := dune; pb_author := Some herbert; pb_genre := [scifi] |}
      ∧ allAuthors ≡ₚ [herbert; austen].
Proof.
  split; [reflexivity |].
  destruct (update_form_shows_stored_book (λ _ _, false) "b1" library dune)
    as (allAuthors & allGenres & joined & Hr & Hj & _ & _ & _ & _ & Hperm & _);
    [reflexivity |].
  exists allAuthors, allGenres, joined. split; [exact Hr |]. split; [| exact Hperm].
  rewrite Hj. reflexivity.
Defined.

(** X6: the create form's GET renders the empty form: every author and
    every genre of the store, each once, in ascending order of family name
    and of name, no genre checked, no book and no error list. *)
Theorem create_form_offers_every_choice (s : Store) :
  ∃ allAuthors allGenres,
    responses (book_create_get reliable s).2 =
      [Render "book_form" (book_form_locals "Create Book" allAuthors allGenres None None)]
    ∧ allAuthors ≡ₚ authors s
    ∧ ascending Author.family_name allAuthors
    ∧ choice <$> allGenres ≡ₚ genres s
    ∧ ascending Genre.name (choice <$> allGenres)
    ∧ ∀ c, c ∈ allGenres → checked c = false.
Proof.
  rewrite book_create_get_run. eexists _, _. split_and!.
  - reflexivity.
  - apply sort_by_Permutation.
  - apply sort_by_ascending.
  - rewrite mark_checked_choice. apply sort_by_Permutation.
  - rewrite mark_checked_choice. apply sort_by_ascending.
  - intros c Hc. by apply mark_checked_checked in Hc.
Qed.

(** X7: the book list shows every stored book exactly once, in ascending
    order of title, each with its author joined when one resolves; an empty
    collection gives the view with an empty list, not an error. *)
Theorem book_list_sorted_complete (s : Store) :
  ∃ shown,
    (book_list None s).2 =
      [ExecBookFind; RenderBookList "book_list" "Book List" (list_item s <$> shown)]
    ∧ shown ≡ₚ (map_to_list (books s)).*2
    ∧ ascending Book.title shown
    ∧ (∀ b, b ∈ shown ↔ ∃ k, books s !! k = Some b)
    ∧ length shown = size (books s)
    ∧ (books s = ∅ → shown = [])
    ∧ (∀ b a, b ∈ shown → item_author (list_item s b) = Some a →
         a ∈ authors s ∧ Author._id a = Book.author b).
Proof.
  exists (sort_by Book.title (map_to_list (books s)).*2).
  pose proof (sort_by_Permutation Book.title (map_to_list (books s)).*2) as Hperm.
  split_and!.
  - reflexivity.
  - exact Hperm.
  - apply sort_by_ascending.
  - intros b. rewrite Hperm, list_elem_of_fmap. split.
    + intros ([k b'] & -> & Hin). exists k. by apply elem_of_map_to_list.
    + intros [k Hk]. exists (k, b). split; [done | by apply elem_of_map_to_list].
  - by rewrite Hperm, length_fmap, length_map_to_list.
  - intros Hempty. apply Permutation_nil_r. by rewrite Hperm, Hempty, map_to_list_empty.
  - intros b a _. apply populate_author_Some.
Qed.

(** X8: whatever the store calls do, every handler answers a request with
    exactly one call among render, redirect and next (for the book list: its
    query, then its one view or [next]), except the delete confirmation's
    GET: when both its reads answer and the identifier resolves to no book it
    makes two calls, the redirect to the book list and then the render of the
    confirmation view with no book, and one call otherwise. *)
Theorem one_response_per_request (lib : Validator) (faults : StoreOp → option Error)
    (includes_joined : list Genre.doc → Id → bool) (fresh id : Id) (body : RawBody)
    (s : Store) :
  length (responses (index faults s).2) = 1
  ∧ (∀ fault,
       (∃ books_shown,
          (book_list fault s).2 =
            [ExecBookFind; RenderBookList "book_list" "Book List" books_shown])
       ∨ ∃ e, (book_list fault s).2 = [ExecBookFind; NextBookList e])
  ∧ length (responses (book_detail faults id s).2) = 1
  ∧ length (responses (book_create_get faults s).2) = 1
  ∧ length (responses (book_create_post faults lib fresh body s).2) = 1
  ∧ length (responses (book_update_get faults includes_joined id s).2) = 1
  ∧ length (responses (book_update_post faults lib id body s).2) = 1
  ∧ length (responses (book_delete_post faults id s).2) = 1
  ∧ (if bool_decide (faults (Book_findById id) = None ∧ faults (BookInstance_find id) = None
                     ∧ books s !! id = None)
     then responses (book_delete_get faults id s).2 =
            [Redirect "/catalog/books";
             Render "book_delete" (book_delete_locals "Delete Book" None (instances_of id s))]
     else length (responses (book_delete_get faults id s).2) = 1).
Proof.
  rewrite index_run, book_detail_run, book_create_get_run, book_create_post_run,
    book_update_get_run, book_update_post_run, book_delete_post_run, book_delete_get_run,
    !render_form_again_run.
  split_and!.
  - by destruct (first_rejection faults _).
  - intros [e|]; [right; by exists e | left; by eexists].
  - destruct (first_rejection faults _); [done |]. by destruct (books s !! id).
  - by destruct (first_rejection faults _).
  - destruct (bool_decide _); [by destruct (faults _) | by destruct (first_rejection faults _)].
  - destruct (first_rejection faults _); [done |]. by destruct (books s !! id).
  - destruct (bool_decide _); [| by destruct (first_rejection faults _)].
    destruct (faults _); [done |]. by destruct (books s !! id).
  - destruct (first_rejection faults _); [done |].
    destruct (bool_decide _); [done |]. by destruct (faults _).
  - cbn [first_rejection].
    destruct (faults (Book_findById id)), (faults (BookInstance_find id));
      try (rewrite bool_decide_eq_false_2 by (intros (? & ? & ?); done); reflexivity).
    destruct (books s !! id) eqn:Hb.
    + rewrite !bool_decide_eq_false_2 by (try intros (? & ? & ?); done). reflexivity.
    + rewrite !bool_decide_eq_true_2 by done. reflexivity.
Qed.

(** ** The form after a rejected submission *)

(** X9: when a required field is missing, both POST handlers render the
    form prefilled with the sanitized submission, with every author and genre
    of the store in ascending order, and a genre is checked exactly when its
    identifier is among the escaped genre values submitted. *)
Theorem rejected_form_keeps_selection (lib : Validator)
    (fresh id : Id) (body : RawBody) (s : Store) :
  missing lib body ≠ [] →
  ∃ allAuthors allGenres errs,
    responses (book_create_post reliable lib fresh body s).2 =
      [Render "book_form"
         (book_form_locals "Create Book" allAuthors allGenres
            (Some (Unsaved (sanitized lib fresh body))) (Some errs))]
    ∧ responses (book_update_post reliable lib id body s).2 =
      [Render "book_form"
         (book_form_locals "Update Book" allAuthors allGenres
            (Some (Unsaved (sanitized lib id body))) (Some errs))]
    ∧ allAuthors ≡ₚ authors s
    ∧ ascending Author.family_name allAuthors
    ∧ choice <$> allGenres ≡ₚ genres s
    ∧ ascending Genre.name (choice <$> allGenres)
    ∧ ∀ c, c ∈ allGenres →
        (checked c = true ↔ Genre._id (choice c) ∈ escape lib <$> genre_to_array (genre body)).
Proof.
  intros Hmissing.
  assert ((validate lib (convert_genre body)).2 ≠ []) as Herrs
    by (intros Hnil; by apply Hmissing, validate_accepts).
  rewrite book_create_post_run, book_update_post_run, !bool_decide_eq_false_2 by done.
  rewrite !render_form_again_run. eexists _, _, _. split_and!.
  - reflexivity.
  - reflexivity.
  - apply sort_by_Permutation.
  - apply sort_by_ascending.
  - rewrite mark_checked_choice. apply sort_by_Permutation.
  - rewrite mark_checked_choice. apply sort_by_ascending.
  - intros c Hc. apply mark_checked_checked in Hc. rewrite Hc.
    apply bool_decide_eq_true.
Qed.

Lemma rejected_form_keeps_selection_witness :
  missing ascii_validator blank_form ≠ []
  ∧ ∃ allAuthors allGenres errs,
      responses (book_create_post reliable ascii_validator "b3" blank_form library).2 =
        [Render "book_form"
           (book_form_locals "Create Book" allAuthors allGenres
              (Some (Unsaved (sanitized ascii_validator "b3" blank_form))) (Some errs))]
      ∧ ∀ c, c ∈ allGenres → (checked c = true ↔ Genre._id (choice c) ∈ ["g1"]).
Proof.
  split; [vm_compute; discriminate |].
  destruct (rejected_form_keeps_selection ascii_validator "b3" "b1" blank_form library)
    as (allAuthors & allGenres & errs & Hc & _ & _ & _ & _ & _ & Hmarks);
    [vm_compute; discriminate |].
  by exists allAuthors, allGenres, errs.
Defined.

(** ** Creating, updating and deleting, composed *)

(** X10: after a create POST that passes validation, under an identifier
    not in use, a detail GET for the new identifier renders the detail view
    under the trimmed and escaped title, with the record that was persisted. *)
Theorem created_book_is_shown (lib : Validator) (fresh : Id) (body : RawBody) (s : Store) :
  missing lib body = [] →
  books s !! fresh = None →
  ∃ joined insts,
    responses (book_detail reliable fresh (book_create_post reliable lib fresh body s).1).2 =
      [Render "book_detail"
         (book_detail_locals (escape lib (trim lib (default "" (title body)))) joined insts)]
    ∧ pb_book joined = sanitized lib fresh body
    ∧ ∀ i, i ∈ insts ↔ i ∈ bookinstances s ∧ BookInstance.book i = fresh.
Proof.
  intros Hvalid%validate_accepts _.
  rewrite book_create_post_run, bool_decide_eq_true_2 by done.
  rewrite book_detail_run. cbn.
  rewrite lookup_insert_eq. eexists _, _. split_and!; [reflexivity | reflexivity |].
  intros i. unfold instances_of. cbn. rewrite list_elem_of_filter. tauto.
Qed.

Lemma created_book_is_shown_witness :
  missing ascii_validator dune_form = []
  ∧ books library !! "b3" = None
  ∧ ∃ joined insts,
      responses (book_detail reliable "b3"
          (book_create_post reliable ascii_validator "b3" dune_form library).1).2 =
        [Render "book_detail" (book_detail_locals "Dune" joined insts)]
      ∧ pb_book joined = sanitized ascii_validator "b3" dune_form.
Proof.
  split; [reflexivity |]. split; [reflexivity |].
  destruct (created_book_is_shown ascii_validator "b3" dune_form library)
    as (joined & insts & Hr & Hb & _); [reflexivity | reflexivity |].
  by exists joined, insts.
Defined.

(** X11: creating a book under an unused identifier that no instance
    references and then deleting it gives back the store as it was, and the
    delete answers with the redirect to the book list. *)
Theorem create_then_delete_restores (lib : Validator) (fresh : Id) (body : RawBody) (s : Store) :
  missing lib body = [] →
  books s !! fresh = None →
  length (instances_of fresh s) = 0 →
  (book_delete_post reliable fresh (book_create_post reliable lib fresh body s).1).1 = s
  ∧ responses (book_delete_post reliable fresh (book_create_post reliable lib fresh body s).1).2 =
      [Redirect "/catalog/books"].
Proof.
  intros Hvalid%validate_accepts Hfresh Hnone.
  rewrite book_create_post_run, bool_decide_eq_true_2 by done.
  rewrite book_delete_post_run. cbn [fst snd first_rejection reliable].
  change (instances_of fresh (set_books _ s)) with (instances_of fresh s).
  rewrite bool_decide_eq_false_2 by lia. cbn. split; [| reflexivity].
  apply store_eq; try reflexivity. cbn. by apply delete_insert_id.
Qed.

Lemma create_then_delete_restores_witness :
  missing ascii_validator dune_form = []
  ∧ books library !! "b3" = None
  ∧ length (instances_of "b3" library) = 0
  ∧ (book_delete_post reliable "b3"
      (book_create_post reliable ascii_validator "b3" dune_form library).1).1 =
      library.
Proof.
  split; [reflexivity |]. split; [reflexivity |]. split; [reflexivity |].
  apply (create_then_delete_restores ascii_validator "b3" dune_form library); reflexivity.
Defined.

(** X12: a valid update POST whose identifier resolves files the sanitized
    record under that identifier, leaves every other book and the other
    collections as they were, and redirects to the url of the document as it
    was before the update, which is the url of the new record when the
    document carried its own identifier. *)
Theorem update_replaces_fields (lib : Validator)
    (id : Id) (body : RawBody) (s : Store) (old : Book.doc) :
  missing lib body = [] →
  books s !! id = Some old →
  books (book_update_post reliable lib id body s).1 !! id = Some (sanitized lib id body)
  ∧ (∀ k, k ≠ id → books (book_update_post reliable lib id body s).1 !! k = books s !! k)
  ∧ bookinstances (book_update_post reliable lib id body s).1 = bookinstances s
  ∧ authors (book_update_post reliable lib id body s).1 = authors s
  ∧ genres (book_update_post reliable lib id body s).1 = genres s
  ∧ responses (book_update_post reliable lib id body s).2 = [Redirect (Book.url old)]
  ∧ (Book._id old = id → Book.url old = Book.url (sanitized lib id body)).
Proof.
  intros Hvalid%validate_accepts Hold.
  rewrite !book_update_post_run, !bool_decide_eq_true_2 by done.
  cbn [reliable]. rewrite Hold. cbn. split_and!; try reflexivity.
  - apply lookup_insert_eq.
  - intros k Hk. by apply lookup_insert_ne.
  - unfold Book.url. cbn. by intros ->.
Qed.

Lemma update_replaces_fields_witness :
  missing ascii_validator dune_form = []
  ∧ books library !! "b2" = Some emma
  ∧ books (book_update_post reliable ascii_validator "b2" dune_form library).1 !! "b2" =
      Some (sanitized ascii_validator "b2" dune_form)
  ∧ books (book_update_post reliable ascii_validator "b2" dune_form library).1 !! "b1" = Some dune
  ∧ responses (book_update_post reliable ascii_validator "b2" dune_form library).2 =
      [Redirect "/catalog/book/b2"].
Proof.
  split; [reflexivity |]. split; [reflexivity |].
  destruct (update_replaces_fields ascii_validator "b2" dune_form library emma)
    as (Hnew & Hothers & _ & _ & _ & Hr & _); [reflexivity | reflexivity |].
  split; [exact Hnew |]. split; [| exact Hr].
  rewrite (Hothers "b1"); [reflexivity | discriminate].
Defined.


(** X14: whatever the store calls do, a delete POST changes no book other
    than the one named, and no instance, author or genre; naming a book that
    is not stored changes nothing and, when no instance refers to that
    identifier, is answered with the redirect to the book list. *)
Theorem delete_post_touches_only_target (faults : StoreOp → option Error) (bookid : Id)
    (s : Store) :
  (∀ k, k ≠ bookid →
     books (book_delete_post faults bookid s).1 !! k = books s !! k)
  ∧ bookinstances (book_delete_post faults bookid s).1 = bookinstances s
  ∧ authors (book_delete_post faults bookid s).1 = authors s
  ∧ genres (book_delete_post faults bookid s).1 = genres s
  ∧ (books s !! bookid = None → (book_delete_post faults bookid s).1 = s)
  ∧ (books s !! bookid = None → length (instances_of bookid s) = 0 →
     responses (book_delete_post reliable bookid s).2 = [Redirect "/catalog/books"]).
Proof.
  assert (∀ P : Store → Prop, P s → P (set_books (delete bookid) s) →
            P (book_delete_post faults bookid s).1) as Hcases.
  { intros P Hs Hd. rewrite book_delete_post_run.
    destruct (first_rejection faults _); [done |].
    destruct (bool_decide _); [done |].
    by destruct (faults _). }
  split_and!.
  - apply Hcases; [done |]. intros k Hk. by apply lookup_delete_ne.
  - by apply Hcases.
  - by apply Hcases.
  - by apply Hcases.
  - intros Hnone. apply Hcases; [done |].
    apply store_eq; try reflexivity. by apply delete_id.
  - intros _ Hzero. rewrite book_delete_post_run. cbn [first_rejection reliable].
    by rewrite bool_decide_eq_false_2 by lia.
Qed.

Lemma delete_post_touches_only_target_witness :
  books library !! "b9" = None
  ∧ length (instances_of "b9" library) = 0
  ∧ (book_delete_post reliable "b9" library).1 = library
  ∧ responses (book_delete_post reliable "b9" library).2 = [Redirect "/catalog/books"].
Proof.
  split; [reflexivity |]. split; [reflexivity |].
  destruct (delete_post_touches_only_target reliable "b9" library)
    as (_ & _ & _ & _ & Hsame & Hr).
  split; [apply Hsame; reflexivity | apply Hr; reflexivity].
Defined.

(** X15: after a delete POST for a book that no instance references, a
    detail GET for it is answered with the not-found error, and a second
    delete POST changes nothing more and redirects again. *)
Theorem deleted_book_is_gone (bookid : Id) (s : Store) :
  length (instances_of bookid s) = 0 →
  responses (book_detail reliable bookid (book_delete_post reliable bookid s).1).2 =
    [Next not_found]
  ∧ (book_delete_post reliable bookid (book_delete_post reliable bookid s).1).1 =
      (book_delete_post reliable bookid s).1
  ∧ responses (book_delete_post reliable bookid (book_delete_post reliable bookid s).1).2 =
      [Redirect "/catalog/books"].
Proof.
  intros Hzero. rewrite book_detail_run, !book_delete_post_run.
  cbn [first_rejection reliable]. rewrite !(bool_decide_eq_false_2 (0 < _)) by lia.
  cbn [fst snd].
  change (instances_of bookid (set_books _ s)) with (instances_of bookid s).
  rewrite !(bool_decide_eq_false_2 (0 < _)) by lia. cbn.
  rewrite lookup_delete_eq. split_and!; try reflexivity.
  apply store_eq; try reflexivity. cbn. apply delete_delete_eq.
Qed.

Lemma deleted_book_is_gone_witness :
  length (instances_of "b2" library) = 0
  ∧ responses (book_detail reliable "b2" (book_delete_post reliable "b2" library).1).2 =
      [Next not_found].
Proof.
  split; [reflexivity |].
  apply (deleted_book_is_gone "b2" library). reflexivity.
Defined.

(** X16: when the write of a create, update or delete POST fails, the store
    is left as it was and the only answer is the write's error handed to
    [next]: there is no redirect. *)
Theorem failed_write_changes_nothing (lib : Validator)
    (faults : StoreOp → option Error) (fresh id bookid : Id)
    (body : RawBody) (s : Store) (e : Error) :
  (missing lib body = [] → faults (Book_save (sanitized lib fresh body)) = Some e →
   (book_create_post faults lib fresh body s).1 = s
   ∧ responses (book_create_post faults lib fresh body s).2 = [Next e])
  ∧ (missing lib body = [] → faults (Book_findByIdAndUpdate id (sanitized lib id body)) = Some e →
     (book_update_post faults lib id body s).1 = s
     ∧ responses (book_update_post faults lib id body s).2 = [Next e])
  ∧ (faults (Book_findById bookid) = None → faults (BookInstance_find bookid) = None →
     faults (Book_findByIdAndDelete bookid) = Some e →
     length (instances_of bookid s) = 0 →
     (book_delete_post faults bookid s).1 = s
     ∧ responses (book_delete_post faults bookid s).2 = [Next e]).
Proof.
  split_and!.
  - intros Hvalid%validate_accepts Hf.
    by rewrite book_create_post_run, bool_decide_eq_true_2, Hf.
  - intros Hvalid%validate_accepts Hf.
    by rewrite book_update_post_run, bool_decide_eq_true_2, Hf.
  - intros Hb Hi Hd Hzero. rewrite book_delete_post_run. cbn [first_rejection].
    rewrite Hb, Hi, Hd, bool_decide_eq_false_2 by lia. done.
Qed.

Lemma failed_write_changes_nothing_witness :
  missing ascii_validator dune_form = []
  ∧ writes_down (Book_save (sanitized ascii_validator "b3" dune_form)) =
      Some {| message := "not primary"; status := None |}
  ∧ (book_create_post writes_down ascii_validator "b3" dune_form library).1 = library
  ∧ responses (book_create_post writes_down ascii_validator "b3" dune_form library).2 =
      [Next {| message := "not primary"; status := None |}].
Proof.
  split; [reflexivity |]. split; [reflexivity |].
  apply (proj1 (failed_write_changes_nothing ascii_validator writes_down "b3" "b1" "b2" dune_form library
                  {| message := "not primary"; status := None |})); reflexivity.
Defined.

(** X17: for a stored book, the delete confirmation's GET shows the book
    with exactly the instances that reference it, and the delete POST removes
    the book exactly when that list is empty. *)
Theorem delete_confirmation_predicts_delete (id : Id) (s : Store) (b : Book.doc) :
  books s !! id = Some b →
  ∃ insts,
    responses (book_delete_get reliable id s).2 =
      [Render "book_delete" (book_delete_locals "Delete Book" (Some b) insts)]
    ∧ (∀ i, i ∈ insts ↔ i ∈ bookinstances s ∧ BookInstance.book i = id)
    ∧ (insts = [] ↔ books (book_delete_post reliable id s).1 !! id = None).
Proof.
  intros Hb. exists (instances_of id s).
  rewrite book_delete_get_run, book_delete_post_run. cbn [first_rejection reliable].
  rewrite Hb, bool_decide_eq_false_2 by done. split_and!.
  - reflexivity.
  - intros i. unfold instances_of. rewrite list_elem_of_filter. tauto.
  - destruct (instances_of id s) as [|i l] eqn:Hinsts.
    + rewrite bool_decide_eq_false_2 by (simpl; lia). cbn.
      split; [intros _; apply lookup_delete_eq | done].
    + rewrite bool_decide_eq_true_2 by (simpl; lia). cbn [fst].
      rewrite Hb. split; discriminate.
Qed.

Lemma delete_confirmation_predicts_delete_witness :
  books library !! "b1" = Some dune
  ∧ ∃ insts,
      responses (book_delete_get reliable "b1" library).2 =
        [Render "book_delete" (book_delete_locals "Delete Book" (Some dune) insts)]
      ∧ (insts = [] ↔ books (book_delete_post reliable "b1" library).1 !! "b1" = None).
Proof.
  split; [reflexivity |].
  destruct (delete_confirmation_predicts_delete "b1" library dune) as (insts & Hr & _ & Hiff);
    [reflexivity |].
  by exists insts.
Defined.

(** X18: a create POST that passes validation, under an identifier not in
    use and with the store answering, files under that identifier the record
    whose title, author, summary and isbn are the submitted values trimmed
    and then escaped and whose genre values are the submitted ones escaped;
    every other book and the other collections stay as they were, and the
    answer is the redirect to the url of that record. *)
Theorem valid_submission_persisted (lib : Validator) (fresh : Id) (body : RawBody)
    (s : Store) :
  missing lib body = [] →
  books s !! fresh = None →
  books (book_create_post reliable lib fresh body s).1 !! fresh =
    Some {| Book._id := fresh;
            Book.title := escape lib (trim lib (default "" (title body)));
            Book.author := escape lib (trim lib (default "" (author body)));
            Book.summary := escape lib (trim lib (default "" (summary body)));
            Book.isbn := escape lib (trim lib (default "" (isbn body)));
            Book.genre := escape lib <$> genre_to_array (genre body) |}
  ∧ (∀ k, k ≠ fresh → books (book_create_post reliable lib fresh body s).1 !! k = books s !! k)
  ∧ bookinstances (book_create_post reliable lib fresh body s).1 = bookinstances s
  ∧ authors (book_create_post reliable lib fresh body s).1 = authors s
  ∧ genres (book_create_post reliable lib fresh body s).1 = genres s
  ∧ responses (book_create_post reliable lib fresh body s).2 =
      [Redirect (Book.url (sanitized lib fresh body))].
Proof.
  intros Hvalid%validate_accepts _.
  rewrite !book_create_post_run, !bool_decide_eq_true_2 by done. cbn.
  split_and!; try reflexivity.
  - apply lookup_insert_eq.
  - intros k Hk. by apply lookup_insert_ne.
Qed.

Lemma valid_submission_persisted_witness :
  missing ascii_validator dune_form = []
  ∧ books library !! "b3" = None
  ∧ books (book_create_post reliable ascii_validator "b3" dune_form library).1 !! "b3" =
      Some {| Book._id := "b3"; Book.title := "Dune"; Book.author := "a1";
              Book.summary := "Desert &lt;planet&gt;"; Book.isbn := "9780441013593";
              Book.genre := [" g1"] |}
  ∧ responses (book_create_post reliable ascii_validator "b3" dune_form library).2 =
      [Redirect "/catalog/book/b3"].
Proof.
  split; [reflexivity |]. split; [reflexivity |].
  destruct (valid_submission_persisted ascii_validator "b3" dune_form library)
    as (Hstored & _ & _ & _ & _ & Hr); [reflexivity | reflexivity |].
  split; [exact Hstored | exact Hr].
Defined.
